(** * Verification of the G4VProcess binding unit

    Source: core/opengate_core/g4_bindings/pyG4VProcess.cpp

    The unit consists of one function, [init_G4VProcess], whose body is one
    pybind11 expression

      py::class_<G4VProcess, std::unique_ptr<G4VProcess, py::nodelete>>(m, "G4VProcess");

    The function is embedded below as a computation in a state-and-exception
    monad over the interpreter state it acts on (the Python object heap with
    the module [m], the binding layer's registry of bound C++ classes and
    the native heap).  The pybind11 declarations it uses are not part of
    the source tree; [Module Pybind11] gives them as an executable model,
    each definition saying what it stands for. *)

From stdpp Require Import base strings gmap list fin_maps.

Open Scope string_scope.

(** Addresses of Python objects and of native (C++) objects. *)
Definition loc := positive.
Definition addr := positive.

(* ===================================================================== *)
(** * The binding layer *)
(* ===================================================================== *)

Module Pybind11.

(** Modelled from the spec: [py::nodelete] and the holder template argument
    of [py::class_] are declared in pybind11's headers, which are not under
    src/.  The spec's glossary calls [nodelete] the "no-delete ownership
    mode": the holder keeps a non-owning reference and never deallocates
    the native object.  [default_delete] is what [std::unique_ptr] uses
    when no deleter is written. *)
Inductive deleter := default_delete | nodelete.

(** Modelled from the spec: the holder template argument of [py::class_]
    (pybind11, not under src/), the smart pointer through which a wrapper
    keeps its native object. *)
Inductive holder_type :=
| unique_ptr (d : deleter)
| shared_ptr.

(** Modelled from the spec: the template arguments of
    [py::class_<type_, options...>] (pybind11, not under src/) after the
    bound class itself: a holder type or a base class. *)
Inductive option_arg :=
| Holder (h : holder_type)
| Base (b : string).

(** Modelled from the spec: what a chained [.def(...)] of pybind11 (not
    under src/) puts into the type's dictionary. *)
Inductive member := Constructor | Method | Property.

(** Modelled from the spec: the faults of pybind11 (not under src/), the
    spec's "registration conflict" among them.  The first four are the
    [std::runtime_error]s of [pybind11_fail] raised while a class is being
    registered; [no_constructor_defined] is the [TypeError] of
    [pybind11_object_init], [not_callable] the one of calling an object
    that is no type; [not_copyable] is the cast error of the copy
    and move return value policies. *)
Inductive exn :=
| name_already_defined (name : string)
| type_already_registered (name : string)
| unknown_base (name base : string)
| holder_mismatch (name base : string)
| no_constructor_defined (name : string)
| not_callable
| not_copyable.

(** A call returns or throws. *)
Inductive result (A : Type) :=
| Ok (a : A)
| Throw (e : exn).
Arguments Ok {A} a.
Arguments Throw {A} e.

(** Modelled from the spec: pybind11's per-class record
    ([detail::type_info], not under src/): the Python type object, the C++
    class, and the holder it was registered with. *)
Record type_info := mk_type_info {
  ti_type : loc;
  ti_cpptype : string;
  ti_holder : holder_type;
  ti_default_holder : bool
}.

(** Modelled from the spec: a Python heap type as pybind11's
    [make_new_python_type] (not under src/) creates it; [tp_cpptype] is
    the C++ class it stands for (pybind11 finds it through
    [internals.registered_types_py]). *)
Record heap_type := mk_heap_type {
  tp_name : string;
  tp_cpptype : string;
  tp_bases : list loc;
  tp_mro : list loc;
  tp_dict : gmap string member
}.

(** Modelled from the spec: pybind11's wrapper object
    ([detail::instance], not under src/) around one native object, the
    spec's "non-owned native object" seen from the binding layer. *)
Record instance := mk_instance {
  ob_type : loc;
  inst_tinfo : type_info;
  value_ptr : option addr;
  owned : bool;
  holder_constructed : bool
}.

(** The Python objects the bindings deal with. *)
Inductive py_object :=
| PyModule (dict : gmap string loc)
| PyType (t : heap_type)
| PyInstance (i : instance).

(** Modelled from the spec: the state the bindings run in.  The spec's
    "module's type table" is, in pybind11 (not under src/), two things:
    the dictionary of the module object, in the Python heap [objs], and
    the process-wide map from bound C++ classes to their records
    ([internals.registered_types_cpp]).  [native] is the set of live
    native objects. *)
Record state := mk_state {
  objs : gmap loc py_object;
  registered_types_cpp : gmap string type_info;
  native : gset addr
}.

(** Computations on that state that may throw. *)
Definition M (A : Type) : Type := state → result A * state.

#[global] Instance M_ret : MRet M := λ A (a : A) σ, (Ok a, σ).

#[global] Instance M_bind : MBind M := λ A B (k : A → M B) (c : M A) σ,
  match c σ with
  | (Ok a, σ') => k a σ'
  | (Throw e, σ') => (Throw e, σ')
  end.

(** ** Modules *)

(** The dictionary of the module object at [m]. *)
Definition mod_dict (σ : state) (m : loc) : gmap string loc :=
  match objs σ !! m with
  | Some (PyModule d) => d
  | _ => ∅
  end.

(** [m] is the address of a module object, as the type [py::module &] of
    the unit's parameter has it. *)
Definition is_module (σ : state) (m : loc) : Prop :=
  ∃ d, objs σ !! m = Some (PyModule d).

(** Modelled from the spec: [py::hasattr] of pybind11 (not under src/) on
    a module object. *)
Definition hasattr (σ : state) (scope : loc) (name : string) : bool :=
  bool_decide (is_Some (mod_dict σ scope !! name)).

(** Modelled from the spec: [py::setattr] of pybind11 (not under src/) on
    the module at [scope], whose dictionary is [d]. *)
Definition setattr (scope : loc) (name : string) (v : loc)
    (os : gmap loc py_object) (d : gmap string loc) : gmap loc py_object :=
  <[scope := PyModule (<[name := v]> d)]> os.

(** ** Registering a class *)

(** Modelled from the spec: how [py::class_] (pybind11, not under src/)
    reads its template arguments: the holder is the one written, or
    [std::unique_ptr] with the default deleter; every other argument is a
    base.  A holder is a default holder when it is a [std::unique_ptr]. *)
Definition holder_of (options : list option_arg) : holder_type :=
  default (unique_ptr default_delete)
    (head (omap (λ o, match o with Holder h => Some h | Base _ => None end) options)).

(** Modelled from the spec: the base classes among the template
    arguments of [py::class_] (pybind11, not under src/). *)
Definition bases_of (options : list option_arg) : list string :=
  omap (λ o, match o with Base b => Some b | Holder _ => None end) options.

(** Modelled from the spec: [type_record::default_holder] of pybind11
    (not under src/). *)
Definition is_default_holder (h : holder_type) : bool :=
  match h with unique_ptr _ => true | shared_ptr => false end.

(** Modelled from the spec: [type_record::add_base] of pybind11 (not
    under src/), once per base-class template argument; the spec's
    "missing dependency".  The base must already be known to the binding
    layer, with a holder of the same kind. *)
Fixpoint add_bases (reg : gmap string type_info) (name : string)
    (dh : bool) (bs : list string) : result (list loc) :=
  match bs with
  | [] => Ok []
  | b :: bs' =>
      match reg !! b with
      | None => Throw (unknown_base name b)
      | Some bi =>
          if bool_decide (dh = ti_default_holder bi) then
            match add_bases reg name dh bs' with
            | Ok ls => Ok (ti_type bi :: ls)
            | Throw e => Throw e
            end
          else Throw (holder_mismatch name b)
      end
  end.

(** The linearisation of the type at [t]. *)
Definition mro_of (os : gmap loc py_object) (t : loc) : list loc :=
  match os !! t with
  | Some (PyType ty) => tp_mro ty
  | _ => []
  end.

(** Modelled from the spec: the linearisation Python gives a new type
    (the interpreter is not under src/): itself, then what its bases
    linearise to.  For one base this is Python's order; for several the
    order among the ancestors is left abstract, the set is the same. *)
Definition new_mro (os : gmap loc py_object) (t : loc) (bases : list loc)
    : list loc :=
  t :: foldr (λ b acc, list_union (mro_of os b) acc) [] bases.

(** Modelled from the spec: the constructor of [py::class_]
    ([generic_type::initialize] and [make_new_python_type] in pybind11) is
    not under src/.  The spec describes it as registering "one
    externally-defined type under a fixed name in the module's type
    table", with "duplicate registration" and a "missing dependency" as
    its faults.  In pybind11 the checks are, in this order: every base
    named in the template arguments is known; the scope has no attribute
    of that name; the C++ class is not registered yet.  Then the Python
    type is created with an empty dictionary, stored as attribute [name]
    of the scope, and the class is entered into the registry. *)
Definition class_ (type_ : string) (options : list option_arg)
    (scope : loc) (name : string) : M loc := λ σ,
  let holder := holder_of options in
  match add_bases (registered_types_cpp σ) name
          (is_default_holder holder) (bases_of options) with
  | Throw e => (Throw e, σ)
  | Ok bases =>
      if hasattr σ scope name then (Throw (name_already_defined name), σ)
      else
        match registered_types_cpp σ !! type_ with
        | Some _ => (Throw (type_already_registered name), σ)
        | None =>
            let t := fresh (dom (objs σ)) in
            let ty := {| tp_name := name;
                         tp_cpptype := type_;
                         tp_bases := bases;
                         tp_mro := new_mro (objs σ) t bases;
                         tp_dict := ∅ |} in
            let tinfo := {| ti_type := t;
                            ti_cpptype := type_;
                            ti_holder := holder;
                            ti_default_holder := is_default_holder holder |} in
            (Ok t,
             {| objs := setattr scope name t
                          (<[t := PyType ty]> (objs σ)) (mod_dict σ scope);
                registered_types_cpp :=
                  <[type_ := tinfo]> (registered_types_cpp σ);
                native := native σ |})
        end
  end.

(** Modelled from the spec: a chained [.def(...)] of pybind11 (not under
    src/): one more entry in the type's dictionary.  The unit chains
    none. *)
Definition def (cls : loc) (name : string) (f : member) : M loc := λ σ,
  match objs σ !! cls with
  | Some (PyType ty) =>
      (Ok cls,
       {| objs := <[cls := PyType {| tp_name := tp_name ty;
                                     tp_cpptype := tp_cpptype ty;
                                     tp_bases := tp_bases ty;
                                     tp_mro := tp_mro ty;
                                     tp_dict := <[name := f]> (tp_dict ty) |}]>
                    (objs σ);
          registered_types_cpp := registered_types_cpp σ;
          native := native σ |})
  | _ => (Ok cls, σ)
  end.

(** ** Wrapping native objects *)

(** Modelled from the spec: pybind11's [return_value_policy] (not under
    src/), the ways in which instances are "obtained from the native
    library and exposed through this registration". *)
Inductive return_value_policy :=
| take_ownership
| copy
| move
| reference
| reference_internal
| automatic
| automatic_reference.

(** A new wrapper enters the Python heap. *)
Definition alloc_instance (i : instance) : M loc := λ σ,
  let l := fresh (dom (objs σ)) in
  (Ok l, {| objs := <[l := PyInstance i]> (objs σ);
            registered_types_cpp := registered_types_cpp σ;
            native := native σ |}).

(** Modelled from the spec: [class_::init_holder] of pybind11 (not under
    src/) when no holder is handed in: the holder is constructed around
    the value pointer only for an owned instance. *)
Definition init_holder (i : instance) : instance :=
  {| ob_type := ob_type i;
     inst_tinfo := inst_tinfo i;
     value_ptr := value_ptr i;
     owned := owned i;
     holder_constructed := owned i || holder_constructed i |}.

(** The wrapper of the native object at [p], after [init_instance]. *)
Definition wrap (tinfo : type_info) (p : addr) (own : bool) : instance :=
  init_holder {| ob_type := ti_type tinfo;
                 inst_tinfo := tinfo;
                 value_ptr := Some p;
                 owned := own;
                 holder_constructed := false |}.

(** Modelled from the spec: [type_caster_generic::cast] of pybind11 (not
    under src/) on a pointer [src] to a native object of the class of
    [tinfo], the spec's exposing of an instance obtained from the native
    library.  [copy_ctor] says whether the class can be copied (an
    abstract class cannot).  The [automatic] policies are resolved as
    pybind11 does for a pointer.  The search for a wrapper that already
    exists for [src] is left out: it makes no wrapper. *)
Definition cast (src : addr) (policy : return_value_policy)
    (tinfo : type_info) (copy_ctor : bool) : M loc :=
  match policy with
  | take_ownership | automatic => alloc_instance (wrap tinfo src true)
  | reference | reference_internal | automatic_reference =>
      alloc_instance (wrap tinfo src false)
  | copy | move =>
      if copy_ctor then
        λ σ, let p := fresh (native σ) in
             alloc_instance (wrap tinfo p true)
               {| objs := objs σ;
                  registered_types_cpp := registered_types_cpp σ;
                  native := native σ ∪ {[p]} |}
      else (λ σ, (Throw not_copyable, σ))
  end.

(** Modelled from the spec: what the deallocation of a wrapper does with
    its native object in pybind11 (not under src/): [clear_instance]
    calls [class_::dealloc] for an instance that is owned or has a
    holder, and [dealloc] destroys the holder if there is one and calls
    operator delete on the value otherwise. *)
Inductive dealloc_action :=
| untouched
| destroy_holder (h : holder_type)
| operator_delete.

Definition dealloc_of (i : instance) : dealloc_action :=
  match value_ptr i with
  | None => untouched
  | Some _ =>
      if owned i || holder_constructed i then
        if holder_constructed i then destroy_holder (ti_holder (inst_tinfo i))
        else operator_delete
      else untouched
  end.

(** Modelled from the spec: the effect on the native heap.  Destroying a
    [unique_ptr] runs its deleter on the pointer; the call operator of
    [nodelete] (pybind11, not under src/) has an empty body, the spec's
    "must never deallocate the underlying native object".  A [shared_ptr]
    is taken to be the last owner. *)
Definition run_dealloc (a : dealloc_action) (p : addr) (nat : gset addr)
    : gset addr :=
  match a with
  | untouched => nat
  | destroy_holder (unique_ptr nodelete) => nat
  | destroy_holder (unique_ptr default_delete) => nat ∖ {[p]}
  | destroy_holder shared_ptr => nat ∖ {[p]}
  | operator_delete => nat ∖ {[p]}
  end.

Definition clear_instance (i : instance) (nat : gset addr) : gset addr :=
  match value_ptr i with
  | Some p => run_dealloc (dealloc_of i) p nat
  | None => nat
  end.

(** Modelled from the spec: [pybind11_object_dealloc] of pybind11 (not
    under src/): the wrapper at [l] dies. *)
Definition pybind11_object_dealloc (l : loc) : M () := λ σ,
  match objs σ !! l with
  | Some (PyInstance i) =>
      (Ok (), {| objs := delete l (objs σ);
                 registered_types_cpp := registered_types_cpp σ;
                 native := clear_instance i (native σ) |})
  | _ => (Ok (), σ)
  end.

(** ** The Python side: instantiation and instance checks *)

(** Modelled from the spec: Python's attribute lookup on a type (the
    interpreter is not under src/), along the linearisation. *)
Definition lookup_mro (os : gmap loc py_object) (mro : list loc)
    (attr : string) : option member :=
  head (omap (λ t, match os !! t with
                   | Some (PyType ty) => tp_dict ty !! attr
                   | _ => None
                   end) mro).

(** Modelled from the spec: calling a bound type from Python (pybind11's
    [pybind11_object_new] and [pybind11_object_init], not under src/).  A
    type without a bound constructor anywhere in its linearisation ends
    in [pybind11_object_init], which raises; otherwise the bound
    constructor makes a native object that the new wrapper owns. *)
Definition call_type (cls : loc) : M loc := λ σ,
  match objs σ !! cls with
  | Some (PyType ty) =>
      match lookup_mro (objs σ) (tp_mro ty) "__init__",
            registered_types_cpp σ !! tp_cpptype ty with
      | Some _, Some tinfo =>
          let p := fresh (native σ) in
          alloc_instance (wrap tinfo p true)
            {| objs := objs σ;
               registered_types_cpp := registered_types_cpp σ;
               native := native σ ∪ {[p]} |}
      | _, _ => (Throw (no_constructor_defined (tp_name ty)), σ)
      end
  | _ => (Throw not_callable, σ)
  end.

(** Modelled from the spec: the spec's "is-instance-of check" across the
    language boundary, Python's [isinstance] (the interpreter is not
    under src/): the class is in the linearisation of the object's
    type. *)
Definition PyType_IsSubtype (σ : state) (a b : loc) : bool :=
  bool_decide (b ∈ mro_of (objs σ) a).

(** Modelled from the spec: the instance check on the wrapper at [o]. *)
Definition isinstance (σ : state) (o cls : loc) : bool :=
  match objs σ !! o with
  | Some (PyInstance i) => PyType_IsSubtype σ (ob_type i) cls
  | _ => false
  end.

End Pybind11.

(* ===================================================================== *)
(** * The binding unit *)
(* ===================================================================== *)

Import Pybind11.

(** The class declared in G4VProcess.hh, by its name. *)
Definition G4VProcess : string := "G4VProcess".

(** pyG4VProcess.cpp, lines 16 to 20. *)
Definition init_G4VProcess (m : loc) : M () :=
  class_ G4VProcess [Holder (unique_ptr nodelete)] m "G4VProcess" ;;
  mret ().

(** Modelled from the spec: the module definition that calls the
    [init_*] units is not under src/.  The spec calls it "the surrounding
    module-initialization sequence": the units run one after the other on
    the module being loaded, and a fault of one ends the load. *)
Fixpoint module_init (units : list (loc → M ())) (m : loc) : M () :=
  match units with
  | [] => mret ()
  | u :: rest => u m ;; module_init rest m
  end.

(** Modelled from the spec: the binding unit of a subclass (the source
    names StepLimiter) is not under src/.  The spec has it "declare a
    subclass relationship to this type": its [py::class_] names
    [G4VProcess] among its template arguments. *)
Definition init_subclass (type_ : string) (holder : holder_type)
    (name : string) (m : loc) : M loc :=
  class_ type_ [Base G4VProcess; Holder holder] m name.

(** How often a name occurs among the entries of a module. *)
Definition count_name (name : string) (d : gmap string loc) : nat :=
  length (filter (λ kv, kv.1 = name) (map_to_list d)).

(** Some concrete states. *)
Definition empty_module : py_object := PyModule ∅.

Definition st_one : state :=
  {| objs := {[ 1%positive := empty_module ]};
     registered_types_cpp := ∅;
     native := ∅ |}.

Definition st_two : state :=
  {| objs := {[ 1%positive := empty_module; 2%positive := empty_module ]};
     registered_types_cpp := ∅;
     native := {[ 7%positive ]} |}.

Definition st_three : state :=
  {| objs := {[ 1%positive := empty_module; 5%positive := empty_module ]};
     registered_types_cpp := ∅;
     native := ∅ |}.

(** The type object and the record that the unit's declaration gives
    rise to when the type object is allocated at [t]. *)
Definition G4VProcess_type (t : loc) : heap_type :=
  {| tp_name := "G4VProcess";
     tp_cpptype := G4VProcess;
     tp_bases := [];
     tp_mro := [t];
     tp_dict := ∅ |}.

Definition G4VProcess_tinfo (t : loc) : type_info :=
  {| ti_type := t;
     ti_cpptype := G4VProcess;
     ti_holder := unique_ptr nodelete;
     ti_default_holder := true |}.

(** The class is known to the binding layer, with its type object at
    [t]. *)
Definition G4VProcess_registered_at (σ : state) (t : loc) : Prop :=
  registered_types_cpp σ !! G4VProcess = Some (G4VProcess_tinfo t)
  ∧ objs σ !! t = Some (PyType (G4VProcess_type t)).

(** The state after a successful run of the unit on [m]. *)
Definition registered (σ : state) (m : loc) : state :=
  let t := fresh (dom (objs σ)) in
  {| objs := setattr m "G4VProcess" t
               (<[t := PyType (G4VProcess_type t)]> (objs σ)) (mod_dict σ m);
     registered_types_cpp :=
       <[G4VProcess := G4VProcess_tinfo t]> (registered_types_cpp σ);
     native := native σ |}.

(* ===================================================================== *)
(** * Properties of the registration *)
(* ===================================================================== *)

Section registration.
Implicit Types (σ : state) (m t l : loc) (e : exn).

Lemma class_throw_inv type_ options scope name σ e σ' :
  class_ type_ options scope name σ = (Throw e, σ') → σ' = σ.
Proof.
  unfold class_. intros H.
  destruct (add_bases _ _ _ _); [|by inversion H].
  destruct (hasattr _ _ _); [by inversion H|].
  destruct (registered_types_cpp σ !! type_); by inversion H.
Qed.

Lemma hasattr_false σ scope name :
  hasattr σ scope name = false ↔ mod_dict σ scope !! name = None.
Proof.
  unfold hasattr. rewrite bool_decide_eq_false, <-eq_None_not_Some. done.
Qed.

Lemma class_ok_inv type_ options scope name σ t σ' :
  class_ type_ options scope name σ = (Ok t, σ') →
  ∃ bases,
    add_bases (registered_types_cpp σ) name
      (is_default_holder (holder_of options)) (bases_of options) = Ok bases
    ∧ mod_dict σ scope !! name = None
    ∧ registered_types_cpp σ !! type_ = None
    ∧ t = fresh (dom (objs σ))
    ∧ σ' = {| objs := setattr scope name t
                        (<[t := PyType {| tp_name := name;
                                          tp_cpptype := type_;
                                          tp_bases := bases;
                                          tp_mro := new_mro (objs σ) t bases;
                                          tp_dict := ∅ |}]> (objs σ))
                        (mod_dict σ scope);
              registered_types_cpp :=
                <[type_ := {| ti_type := t;
                              ti_cpptype := type_;
                              ti_holder := holder_of options;
                              ti_default_holder :=
                                is_default_holder (holder_of options) |}]>
                  (registered_types_cpp σ);
              native := native σ |}.
Proof.
  unfold class_. intros H.
  destruct (add_bases _ _ _ _) as [bases|] eqn:Hb; [|by inversion H].
  destruct (hasattr _ _ _) eqn:Hh; [by inversion H|].
  destruct (registered_types_cpp σ !! type_) eqn:Hr; [by inversion H|].
  apply hasattr_false in Hh. inversion H; subst. by exists bases.
Qed.

Lemma init_G4VProcess_ok_inv σ m σ' :
  init_G4VProcess m σ = (Ok (), σ') →
  mod_dict σ m !! "G4VProcess" = None
  ∧ registered_types_cpp σ !! G4VProcess = None
  ∧ σ' = registered σ m.
Proof.
  unfold init_G4VProcess, mbind, M_bind. intros H.
  destruct (class_ _ _ _ _ σ) as [[t|e] σ1] eqn:Hc; [|by inversion H].
  apply class_ok_inv in Hc as (bases & Hb & Hn & Hr & -> & ->).
  simpl in Hb. inversion Hb; subst. inversion H; subst. done.
Qed.

Lemma init_G4VProcess_ok σ m :
  mod_dict σ m !! "G4VProcess" = None →
  registered_types_cpp σ !! G4VProcess = None →
  init_G4VProcess m σ = (Ok (), registered σ m).
Proof.
  intros Hn Hr. unfold init_G4VProcess, mbind, M_bind, class_. simpl.
  apply hasattr_false in Hn. rewrite Hn, Hr. done.
Qed.

Lemma init_G4VProcess_throw_inv σ m e σ' :
  init_G4VProcess m σ = (Throw e, σ') →
  σ' = σ
  ∧ ((e = name_already_defined "G4VProcess"
      ∧ is_Some (mod_dict σ m !! "G4VProcess"))
     ∨ (e = type_already_registered "G4VProcess"
        ∧ mod_dict σ m !! "G4VProcess" = None
        ∧ is_Some (registered_types_cpp σ !! G4VProcess))).
Proof.
  unfold init_G4VProcess, mbind, M_bind, class_. simpl. intros H.
  destruct (hasattr σ m "G4VProcess") eqn:Hh.
  - inversion H; subst. split; [done|]. left. split; [done|].
    unfold hasattr in Hh. by apply bool_decide_eq_true in Hh.
  - apply hasattr_false in Hh.
    destruct (registered_types_cpp σ !! G4VProcess) eqn:Hr;
      inversion H; subst.
    split; [done|]. right. eauto.
Qed.

Lemma fresh_loc_None σ : objs σ !! fresh (dom (objs σ)) = None.
Proof. apply not_elem_of_dom, is_fresh. Qed.

Lemma is_module_fresh σ m : is_module σ m → fresh (dom (objs σ)) ≠ m.
Proof.
  intros [d Hd] Heq. pose proof (fresh_loc_None σ) as Hf.
  rewrite Heq in Hf. congruence.
Qed.

Lemma registered_mod_dict σ m :
  mod_dict (registered σ m) m
  = <["G4VProcess" := fresh (dom (objs σ))]> (mod_dict σ m).
Proof.
  unfold mod_dict at 1. unfold registered, setattr. simpl.
  by rewrite lookup_insert_eq.
Qed.

Lemma registered_type_object σ m :
  is_module σ m →
  objs (registered σ m) !! fresh (dom (objs σ))
  = Some (PyType (G4VProcess_type (fresh (dom (objs σ))))).
Proof.
  intros Hm. unfold registered, setattr. simpl.
  rewrite lookup_insert_ne by (intros Heq; by apply (is_module_fresh σ m)).
  by rewrite lookup_insert_eq.
Qed.

Lemma registered_objs_other σ m l :
  l ≠ m → l ≠ fresh (dom (objs σ)) →
  objs (registered σ m) !! l = objs σ !! l.
Proof.
  intros H1 H2. unfold registered, setattr. simpl.
  by rewrite !lookup_insert_ne.
Qed.

Lemma registered_objs_old σ m l o :
  l ≠ m → objs σ !! l = Some o → objs (registered σ m) !! l = Some o.
Proof.
  intros H1 H2. rewrite registered_objs_other; [done..|].
  intros ->. by rewrite fresh_loc_None in H2.
Qed.

Lemma registered_is_module σ m m' :
  is_module σ m' → is_module (registered σ m) m'.
Proof.
  intros [d Hd]. destruct (decide (m' = m)) as [->|Hne].
  - eexists. unfold registered, setattr. simpl. by rewrite lookup_insert_eq.
  - exists d. by apply registered_objs_old.
Qed.

Lemma registered_mod_dict_other σ m m' :
  m' ≠ m → is_module σ m' → mod_dict (registered σ m) m' = mod_dict σ m'.
Proof.
  intros Hne [d Hd]. unfold mod_dict.
  by rewrite (registered_objs_old σ m m' _ Hne Hd), Hd.
Qed.

Lemma filter_key_absent (name : string) (l : list (string * loc)) :
  (∀ kv, kv ∈ l → kv.1 ≠ name) → filter (λ kv, kv.1 = name) l = [].
Proof.
  induction l as [|kv l IH]; intros Hl; [done|].
  rewrite filter_cons_False by (apply Hl; left).
  apply IH. intros kv' Hin. apply Hl. by right.
Qed.

Lemma count_name_absent (name : string) (d : gmap string loc) :
  d !! name = None → count_name name d = 0.
Proof.
  intros Hd. unfold count_name. rewrite filter_key_absent; [done|].
  intros [k w] Hkw%elem_of_map_to_list. simpl. intros ->. congruence.
Qed.

Lemma count_name_present (name : string) (d : gmap string loc) (v : loc) :
  d !! name = Some v → count_name name d = 1.
Proof.
  intros Hd. rewrite <-(insert_delete_id d name v) by done.
  unfold count_name.
  rewrite map_to_list_insert by apply lookup_delete_eq.
  rewrite filter_cons_True by done. simpl. f_equal.
  apply (count_name_absent name (delete name d)), lookup_delete_eq.
Qed.

Lemma module_init_fault (before after : list (loc → M ())) (u : loc → M ())
    (m : loc) (σ0 σ σ' : state) (e : exn) :
  module_init before m σ0 = (Ok (), σ) →
  u m σ = (Throw e, σ') →
  module_init (before ++ u :: after) m σ0 = (Throw e, σ').
Proof.
  revert σ0. induction before as [|v before IH]; intros σ0 Hb Hu; simpl in *.
  - inversion Hb; subst. unfold mbind, M_bind. by rewrite Hu.
  - unfold mbind, M_bind in *.
    destruct (v m σ0) as [[[]|e1] σ1]; [|by inversion Hb].
    by apply IH.
Qed.

End registration.

Section outcome.
Implicit Types (σ : state) (m t l : loc).

(** The three ways a run can end, in the order the checks are made. *)
Lemma init_G4VProcess_outcome σ m :
  init_G4VProcess m σ
  = match mod_dict σ m !! "G4VProcess" with
    | Some _ => (Throw (name_already_defined "G4VProcess"), σ)
    | None =>
        match registered_types_cpp σ !! G4VProcess with
        | Some _ => (Throw (type_already_registered "G4VProcess"), σ)
        | None => (Ok (), registered σ m)
        end
    end.
Proof.
  destruct (mod_dict σ m !! "G4VProcess") as [v|] eqn:Hn.
  - unfold init_G4VProcess, mbind, M_bind, class_. simpl.
    unfold hasattr. rewrite Hn.
    by rewrite bool_decide_eq_true_2 by (by eexists).
  - destruct (registered_types_cpp σ !! G4VProcess) as [ti|] eqn:Hr.
    + unfold init_G4VProcess, mbind, M_bind, class_. simpl.
      apply hasattr_false in Hn. by rewrite Hn, Hr.
    + by apply init_G4VProcess_ok.
Qed.

Lemma registered_keeps_registry_entry σ m :
  registered_types_cpp (registered σ m) !! G4VProcess
  = Some (G4VProcess_tinfo (fresh (dom (objs σ)))).
Proof. unfold registered. simpl. apply lookup_insert_eq. Qed.

Lemma module_init_app (before rest : list (loc → M ())) (m : loc)
    (σ0 σ : state) :
  module_init before m σ0 = (Ok (), σ) →
  module_init (before ++ rest) m σ0 = module_init rest m σ.
Proof.
  revert σ0. induction before as [|v before IH]; intros σ0 Hb; simpl in *.
  - by inversion Hb.
  - unfold mbind, M_bind in *.
    destruct (v m σ0) as [[[]|e1] σ1]; [|by inversion Hb].
    by apply IH.
Qed.

End outcome.

(* ===================================================================== *)
(** * What one execution does *)
(* ===================================================================== *)

(** C2.  A completed execution of [init_G4VProcess] on module [m]
    registers exactly one type: one new type object [t] for the native
    class [G4VProcess] appears in the heap, the dictionary of [m] gains
    exactly the one name "G4VProcess", bound to [t], and the registry of
    bound classes gains exactly the one record of that class. *)
Theorem init_G4VProcess_registers_one_type (σ : state) (m : loc) (σ' : state) :
  is_module σ m →
  init_G4VProcess m σ = (Ok (), σ') →
  ∃ t : loc,
    objs σ !! t = None
    ∧ objs σ' !! t = Some (PyType (G4VProcess_type t))
    ∧ (∀ l ty, objs σ' !! l = Some (PyType ty) →
               l = t ∨ objs σ !! l = Some (PyType ty))
    ∧ mod_dict σ m !! "G4VProcess" = None
    ∧ mod_dict σ' m = <["G4VProcess" := t]> (mod_dict σ m)
    ∧ dom (mod_dict σ' m) ∖ dom (mod_dict σ m) = {["G4VProcess"]}
    ∧ size (mod_dict σ' m) = S (size (mod_dict σ m))
    ∧ registered_types_cpp σ !! G4VProcess = None
    ∧ registered_types_cpp σ'
      = <[G4VProcess := G4VProcess_tinfo t]> (registered_types_cpp σ).
Proof.
  intros Hm (Hn & Hr & ->)%init_G4VProcess_ok_inv.
  exists (fresh (dom (objs σ))).
  split; [apply fresh_loc_None|].
  split; [by apply registered_type_object|].
  split.
  { intros l ty Hl.
    destruct (decide (l = fresh (dom (objs σ)))) as [|Hlt]; [by left|right].
    destruct (decide (l = m)) as [->|Hlm].
    - unfold registered, setattr in Hl. simpl in Hl.
      rewrite lookup_insert_eq in Hl. discriminate.
    - by rewrite registered_objs_other in Hl. }
  split; [done|].
  rewrite registered_mod_dict.
  split; [done|].
  split.
  { apply not_elem_of_dom in Hn. rewrite dom_insert_L. apply set_eq.
    intros k. rewrite elem_of_difference, elem_of_union, !elem_of_singleton.
    split; [by intros [[->|Hk] Hnk]|intros ->; split; [by left|done]]. }
  split; [by apply map_size_insert_None|].
  done.
Qed.

Lemma init_G4VProcess_registers_one_type_witness :
  is_module st_one 1%positive
  ∧ init_G4VProcess 1%positive st_one = (Ok (), registered st_one 1%positive)
  ∧ ∃ t : loc,
      objs st_one !! t = None
      ∧ objs (registered st_one 1%positive) !! t
        = Some (PyType (G4VProcess_type t))
      ∧ (∀ l ty, objs (registered st_one 1%positive) !! l = Some (PyType ty) →
                 l = t ∨ objs st_one !! l = Some (PyType ty))
      ∧ mod_dict st_one 1%positive !! "G4VProcess" = None
      ∧ mod_dict (registered st_one 1%positive) 1%positive
        = <["G4VProcess" := t]> (mod_dict st_one 1%positive)
      ∧ dom (mod_dict (registered st_one 1%positive) 1%positive)
          ∖ dom (mod_dict st_one 1%positive) = {["G4VProcess"]}
      ∧ size (mod_dict (registered st_one 1%positive) 1%positive)
        = S (size (mod_dict st_one 1%positive))
      ∧ registered_types_cpp st_one !! G4VProcess = None
      ∧ registered_types_cpp (registered st_one 1%positive)
        = <[G4VProcess := G4VProcess_tinfo t]> (registered_types_cpp st_one).
Proof.
  assert (H1 : is_module st_one 1%positive) by (exists ∅; reflexivity).
  assert (H2 : init_G4VProcess 1%positive st_one
               = (Ok (), registered st_one 1%positive))
    by (vm_compute; reflexivity).
  split; [exact H1|]. split; [exact H2|].
  exact (init_G4VProcess_registers_one_type st_one 1%positive _ H1 H2).
Defined.

(** C4.  On a module that does not contain the name, a load succeeds as
    soon as the class is not yet known to the binding layer, and after
    every successful load the name "G4VProcess" occurs exactly once among
    the entries of the module (and did not occur before). *)
Theorem module_load_registers_name_once (σ : state) (m : loc) :
  is_module σ m →
  mod_dict σ m !! "G4VProcess" = None →
  (registered_types_cpp σ !! G4VProcess = None →
   ∃ σ', init_G4VProcess m σ = (Ok (), σ'))
  ∧ ∀ σ', init_G4VProcess m σ = (Ok (), σ') →
          count_name "G4VProcess" (mod_dict σ m) = 0
          ∧ count_name "G4VProcess" (mod_dict σ' m) = 1
          ∧ ∀ e, fst (init_G4VProcess m σ) ≠ Throw e.
Proof.
  intros Hm Hn. split.
  - intros Hr. eexists. by apply init_G4VProcess_ok.
  - intros σ' Hrun. split; [by apply count_name_absent|]. split.
    + apply init_G4VProcess_ok_inv in Hrun as (_ & _ & ->).
      rewrite registered_mod_dict.
      eapply count_name_present, lookup_insert_eq.
    + intros e. by rewrite Hrun.
Qed.

Lemma module_load_registers_name_once_witness :
  is_module st_two 2%positive
  ∧ mod_dict st_two 2%positive !! "G4VProcess" = None
  ∧ (registered_types_cpp st_two !! G4VProcess = None →
     ∃ σ', init_G4VProcess 2%positive st_two = (Ok (), σ'))
  ∧ ∀ σ', init_G4VProcess 2%positive st_two = (Ok (), σ') →
          count_name "G4VProcess" (mod_dict st_two 2%positive) = 0
          ∧ count_name "G4VProcess" (mod_dict σ' 2%positive) = 1
          ∧ ∀ e, fst (init_G4VProcess 2%positive st_two) ≠ Throw e.
Proof.
  assert (H1 : is_module st_two 2%positive) by (exists ∅; reflexivity).
  assert (H2 : mod_dict st_two 2%positive !! "G4VProcess" = None)
    by reflexivity.
  split; [exact H1|]. split; [exact H2|].
  exact (module_load_registers_name_once st_two 2%positive H1 H2).
Defined.

(** C8.  An execution of [init_G4VProcess] on [m] adds and never takes
    away.  Whatever the outcome: the native heap is as it was; [m] is
    still a module and keeps every entry it had; every existing object
    other than [m] is present and unchanged; every class record is kept;
    a faulting run changes nothing at all.  A successful run gives
    exactly the old state with three additions, none of which replaces
    anything: one type object at a free address [t], the entry
    "G4VProcess" bound to [t] in [m], where the name was free, and the
    record of the class in the registry, where the class was unknown. *)
Theorem init_G4VProcess_frame (σ : state) (m : loc) (r : result ()) (σ' : state) :
  is_module σ m →
  init_G4VProcess m σ = (r, σ') →
  native σ' = native σ
  ∧ (∀ k, k ≠ "G4VProcess" → mod_dict σ' m !! k = mod_dict σ m !! k)
  ∧ (∀ l o, l ≠ m → objs σ !! l = Some o → objs σ' !! l = Some o)
  ∧ (∀ l o, l ≠ m → objs σ' !! l = Some o →
       objs σ !! l = Some o
       ∨ (objs σ !! l = None
          ∧ o = PyType (G4VProcess_type l)
          ∧ mod_dict σ' m !! "G4VProcess" = Some l))
  ∧ (∀ c, c ≠ G4VProcess →
       registered_types_cpp σ' !! c = registered_types_cpp σ !! c)
  ∧ (∀ e, r = Throw e → σ' = σ)
  ∧ is_module σ' m
  ∧ (∀ k v, mod_dict σ m !! k = Some v → mod_dict σ' m !! k = Some v)
  ∧ (∀ c ti, registered_types_cpp σ !! c = Some ti →
             registered_types_cpp σ' !! c = Some ti)
  ∧ (r = Ok () →
     ∃ t, objs σ !! t = None
          ∧ mod_dict σ m !! "G4VProcess" = None
          ∧ registered_types_cpp σ !! G4VProcess = None
          ∧ objs σ'
            = <[m := PyModule (<["G4VProcess" := t]> (mod_dict σ m))]>
                (<[t := PyType (G4VProcess_type t)]> (objs σ))
          ∧ registered_types_cpp σ'
            = <[G4VProcess := G4VProcess_tinfo t]> (registered_types_cpp σ)).
Proof.
  intros Hm Hrun. destruct r as [[]|e].
  - apply init_G4VProcess_ok_inv in Hrun as (Hn & Hr & ->).
    split; [done|]. split.
    { intros k Hk. rewrite registered_mod_dict. by rewrite lookup_insert_ne. }
    split; [intros l o; apply registered_objs_old|]. split.
    { intros l o Hlm Hl.
      destruct (decide (l = fresh (dom (objs σ)))) as [->|Hlt].
      - right. split; [apply fresh_loc_None|].
        rewrite registered_type_object in Hl by done.
        split; [congruence|].
        rewrite registered_mod_dict. apply lookup_insert_eq.
      - left. by rewrite registered_objs_other in Hl. }
    split.
    { intros c Hc. unfold registered. simpl. by rewrite lookup_insert_ne. }
    split; [done|].
    split; [by apply registered_is_module|]. split.
    { intros k v Hk. rewrite registered_mod_dict.
      rewrite lookup_insert_ne; [done|]. intros <-. congruence. }
    split.
    { intros c ti Hc. unfold registered. simpl.
      rewrite lookup_insert_ne; [done|]. intros <-. congruence. }
    intros _. exists (fresh (dom (objs σ))).
    split; [apply fresh_loc_None|]. by repeat split.
  - apply init_G4VProcess_throw_inv in Hrun as [-> _].
    repeat split; eauto. discriminate.
Qed.

Lemma init_G4VProcess_frame_witness :
  is_module st_two 1%positive
  ∧ init_G4VProcess 1%positive st_two = (Ok (), registered st_two 1%positive)
  ∧ native (registered st_two 1%positive) = native st_two
  ∧ objs (registered st_two 1%positive) !! 2%positive = Some empty_module
  ∧ is_module (registered st_two 1%positive) 1%positive
  ∧ ∃ t, objs st_two !! t = None
         ∧ objs (registered st_two 1%positive)
           = <[1%positive := PyModule (<["G4VProcess" := t]>
                                         (mod_dict st_two 1%positive))]>
               (<[t := PyType (G4VProcess_type t)]> (objs st_two)).
Proof.
  assert (H1 : is_module st_two 1%positive) by (exists ∅; reflexivity).
  assert (H2 : init_G4VProcess 1%positive st_two
               = (Ok (), registered st_two 1%positive))
    by (vm_compute; reflexivity).
  destruct (init_G4VProcess_frame st_two 1%positive _ _ H1 H2)
    as (Hnat & _ & Hold & _ & _ & _ & Hmod & _ & _ & Hexact).
  destruct (Hexact eq_refl) as (t & Ht & _ & _ & Hobjs & _).
  split; [exact H1|]. split; [exact H2|]. split; [exact Hnat|].
  split; [apply Hold; [discriminate|reflexivity]|].
  split; [exact Hmod|].
  exists t. split; [exact Ht|exact Hobjs].
Defined.

(* ===================================================================== *)
(** * Faults *)
(* ===================================================================== *)

(** C6.  The unit faults exactly when the library's registration faults,
    with the same exception and the same state: it neither catches nor
    converts anything.  A fault is one of the two registration conflicts
    raised by the library, it leaves the state as it was, and it ends the
    surrounding initialisation sequence with that same exception: the
    units after it are not run. *)
Theorem init_G4VProcess_faults_surface (σ : state) (m : loc) (e : exn) (σ' : state) :
  (init_G4VProcess m σ = (Throw e, σ')
   ↔ class_ G4VProcess [Holder (unique_ptr nodelete)] m "G4VProcess" σ
     = (Throw e, σ'))
  ∧ (init_G4VProcess m σ = (Throw e, σ') →
     σ' = σ
     ∧ (e = name_already_defined "G4VProcess"
        ∨ e = type_already_registered "G4VProcess")
     ∧ ∀ before after σ0,
         module_init before m σ0 = (Ok (), σ) →
         module_init (before ++ init_G4VProcess :: after) m σ0
         = (Throw e, σ)).
Proof.
  split.
  - unfold init_G4VProcess, mbind, M_bind.
    destruct (class_ _ _ _ _ σ) as [[t|e1] σ1]; split; intros H;
      by inversion H.
  - intros Hrun. pose proof Hrun as Hinv.
    apply init_G4VProcess_throw_inv in Hinv as [-> Hcase].
    split; [done|]. split; [destruct Hcase as [[-> _]|[-> _]]; auto|].
    intros before after σ0 Hb. by eapply module_init_fault.
Qed.

Lemma init_G4VProcess_faults_surface_witness :
  init_G4VProcess 1%positive (registered st_one 1%positive)
  = (Throw (name_already_defined "G4VProcess"), registered st_one 1%positive)
  ∧ module_init ([init_G4VProcess] ++ init_G4VProcess :: [init_G4VProcess])
      1%positive st_one
    = (Throw (name_already_defined "G4VProcess"), registered st_one 1%positive).
Proof.
  assert (H1 : init_G4VProcess 1%positive (registered st_one 1%positive)
               = (Throw (name_already_defined "G4VProcess"),
                  registered st_one 1%positive))
    by (vm_compute; reflexivity).
  split; [exact H1|].
  destruct (init_G4VProcess_faults_surface (registered st_one 1%positive)
              1%positive (name_already_defined "G4VProcess")
              (registered st_one 1%positive)) as [_ Hs].
  destruct (Hs H1) as (_ & _ & Hseq).
  apply Hseq. vm_compute; reflexivity.
Defined.

(* ===================================================================== *)
(** * One shot *)
(* ===================================================================== *)

(** C7, as stated, fails: the module is not the only mutable resource a
    run touches.  A successful run on module 1 changes the binding
    layer's process-wide registry and leaves module 2 as it was; yet a
    run on module 2, which succeeds before, faults after it. *)
Lemma init_G4VProcess_writes_shared_registry :
  init_G4VProcess 1%positive st_two = (Ok (), registered st_two 1%positive)
  ∧ registered_types_cpp (registered st_two 1%positive)
    ≠ registered_types_cpp st_two
  ∧ objs (registered st_two 1%positive) !! 2%positive = objs st_two !! 2%positive
  ∧ fst (init_G4VProcess 2%positive st_two) = Ok ()
  ∧ fst (init_G4VProcess 2%positive (registered st_two 1%positive))
    = Throw (type_already_registered "G4VProcess")
  ∧ ¬ (∀ (σ : state) (m : loc) (r : result ()) (σ' : state),
         is_module σ m →
         init_G4VProcess m σ = (r, σ') →
         registered_types_cpp σ' = registered_types_cpp σ).
Proof.
  assert (H1 : init_G4VProcess 1%positive st_two
               = (Ok (), registered st_two 1%positive))
    by (vm_compute; reflexivity).
  assert (H2 : registered_types_cpp (registered st_two 1%positive)
               ≠ registered_types_cpp st_two).
  { intros H.
    apply (f_equal (λ reg : gmap string type_info, reg !! G4VProcess)) in H.
    vm_compute in H. discriminate. }
  split; [exact H1|]. split; [exact H2|].
  do 3 (split; [vm_compute; reflexivity|]).
  intros Hall. apply H2.
  apply (Hall st_two 1%positive (Ok ()) _); [exists ∅; reflexivity|exact H1].
Qed.

(** C7, amended.  The registration is a one-shot declaration.  A
    successful execution registers exactly once: the registry, the
    module and the heap each grow by one.  There is no retry: a fault
    changes nothing and ends the surrounding load with that exception,
    and a load that runs the unit twice in a row always faults, with the
    name conflict when the first run succeeded.  The mutable resources a
    run touches are the module it registers into and the process-wide
    registry of bound classes, which all modules share: the native
    heap, every other object and every other class record stay as they
    are, and after a success the unit faults on every module. *)
Theorem init_G4VProcess_one_shot (σ : state) (m : loc) (r : result ()) (σ' : state) :
  is_module σ m →
  init_G4VProcess m σ = (r, σ') →
  (r = Ok () →
   size (registered_types_cpp σ') = S (size (registered_types_cpp σ))
   ∧ size (mod_dict σ' m) = S (size (mod_dict σ m))
   ∧ size (objs σ') = S (size (objs σ)))
  ∧ (∀ e, r = Throw e →
       σ' = σ
       ∧ ∀ before after σ0,
           module_init before m σ0 = (Ok (), σ) →
           module_init (before ++ init_G4VProcess :: after) m σ0
           = (Throw e, σ))
  ∧ (∀ before after σ0,
       module_init before m σ0 = (Ok (), σ) →
       ∃ e σ2,
         module_init (before ++ init_G4VProcess :: init_G4VProcess :: after)
           m σ0 = (Throw e, σ2)
         ∧ (r = Ok () → e = name_already_defined "G4VProcess" ∧ σ2 = σ'))
  ∧ native σ' = native σ
  ∧ (∀ l o, l ≠ m → objs σ !! l = Some o → objs σ' !! l = Some o)
  ∧ (∀ c, c ≠ G4VProcess →
       registered_types_cpp σ' !! c = registered_types_cpp σ !! c)
  ∧ (r = Ok () →
     registered_types_cpp σ !! G4VProcess = None
     ∧ is_Some (registered_types_cpp σ' !! G4VProcess)
     ∧ ∀ m', ∃ e, init_G4VProcess m' σ' = (Throw e, σ')).
Proof.
  intros Hm Hrun. destruct r as [[]|e].
  - apply init_G4VProcess_ok_inv in Hrun as (Hn & Hr & ->).
    assert (Hagain : init_G4VProcess m (registered σ m)
                     = (Throw (name_already_defined "G4VProcess"),
                        registered σ m)).
    { by rewrite init_G4VProcess_outcome, registered_mod_dict,
        lookup_insert_eq. }
    split.
    { intros _. split; [|split].
      - unfold registered. simpl. by apply map_size_insert_None.
      - rewrite registered_mod_dict. by apply map_size_insert_None.
      - unfold registered, setattr. simpl. destruct Hm as [d Hd].
        rewrite map_size_insert_Some.
        + apply map_size_insert_None, fresh_loc_None.
        + rewrite lookup_insert_ne; [by eexists|].
          intros Heq. pose proof (fresh_loc_None σ) as Hf. congruence. }
    split; [intros e He; discriminate|]. split.
    { intros before after σ0 Hb.
      exists (name_already_defined "G4VProcess"), (registered σ m).
      split; [|done].
      rewrite (module_init_app _ _ _ _ _ Hb). simpl.
      unfold mbind, M_bind.
      rewrite (init_G4VProcess_ok σ m Hn Hr). by rewrite Hagain. }
    split; [done|].
    split; [intros l o; apply registered_objs_old|]. split.
    { intros c Hc. unfold registered. simpl. by rewrite lookup_insert_ne. }
    intros _. split; [done|]. split.
    { rewrite registered_keeps_registry_entry. by eexists. }
    intros m'. rewrite init_G4VProcess_outcome,
      registered_keeps_registry_entry.
    destruct (mod_dict (registered σ m) m' !! "G4VProcess"); eauto.
  - pose proof Hrun as Hinv.
    apply init_G4VProcess_throw_inv in Hinv as [-> _].
    split; [intros H; discriminate|]. split.
    { intros e' He'. inversion He'; subst e'. split; [done|].
      intros before after σ0 Hb. by eapply module_init_fault. }
    split.
    { intros before after σ0 Hb. exists e, σ.
      split; [|intros H; discriminate].
      by eapply module_init_fault. }
    repeat split; eauto; discriminate.
Qed.

Lemma init_G4VProcess_one_shot_witness :
  is_module st_one 1%positive
  ∧ init_G4VProcess 1%positive st_one = (Ok (), registered st_one 1%positive)
  ∧ size (registered_types_cpp (registered st_one 1%positive))
    = S (size (registered_types_cpp st_one))
  ∧ ∃ e σ2,
      module_init ([] ++ init_G4VProcess :: init_G4VProcess :: [])
        1%positive st_one = (Throw e, σ2)
      ∧ (Ok () = Ok () →
         e = name_already_defined "G4VProcess"
         ∧ σ2 = registered st_one 1%positive).
Proof.
  assert (H1 : is_module st_one 1%positive) by (exists ∅; reflexivity).
  assert (H2 : init_G4VProcess 1%positive st_one
               = (Ok (), registered st_one 1%positive))
    by (vm_compute; reflexivity).
  destruct (init_G4VProcess_one_shot st_one 1%positive _ _ H1 H2)
    as (Hsize & _ & Htwice & _).
  destruct (Hsize eq_refl) as (Hreg & _ & _).
  split; [exact H1|]. split; [exact H2|]. split; [exact Hreg|].
  apply (Htwice [] [] st_one). reflexivity.
Defined.

(* ===================================================================== *)
(** * Inputs and determinism *)
(* ===================================================================== *)

(** C3, as stated, fails: the unit has a parameter, the module [m], and
    its result depends on it.  In a state with two empty modules the type
    is entered into the module that is passed. *)
Lemma init_G4VProcess_depends_on_its_argument :
  mod_dict (snd (init_G4VProcess 1%positive st_two)) 1%positive !! "G4VProcess"
  = Some 3%positive
  ∧ mod_dict (snd (init_G4VProcess 2%positive st_two)) 1%positive !! "G4VProcess"
    = None
  ∧ ¬ (∀ (m1 m2 : loc) (σ : state),
         init_G4VProcess m1 σ = init_G4VProcess m2 σ).
Proof.
  split; [vm_compute; reflexivity|]. split; [vm_compute; reflexivity|].
  intros H. specialize (H 1%positive 2%positive st_two).
  apply (f_equal (λ r, mod_dict (snd r) 1%positive !! "G4VProcess")) in H.
  vm_compute in H. discriminate.
Qed.

(** C3, amended.  The unit takes one input, the module [m] passed by
    reference, and that module is where the registration goes: after a
    successful run [m] holds the name, and every other module has the
    dictionary it had. *)
Theorem init_G4VProcess_registers_into_its_argument (σ : state) (m : loc) (σ' : state) :
  is_module σ m →
  init_G4VProcess m σ = (Ok (), σ') →
  is_module σ' m
  ∧ is_Some (mod_dict σ' m !! "G4VProcess")
  ∧ ∀ m', m' ≠ m → is_module σ m' →
          is_module σ' m' ∧ mod_dict σ' m' = mod_dict σ m'.
Proof.
  intros Hm (Hn & Hr & ->)%init_G4VProcess_ok_inv.
  split; [by apply registered_is_module|]. split.
  - rewrite registered_mod_dict, lookup_insert_eq. by eexists.
  - intros m' Hne Hm'. split; [by apply registered_is_module|].
    by apply registered_mod_dict_other.
Qed.

Lemma init_G4VProcess_registers_into_its_argument_witness :
  is_module st_two 2%positive
  ∧ init_G4VProcess 2%positive st_two = (Ok (), registered st_two 2%positive)
  ∧ is_Some (mod_dict (registered st_two 2%positive) 2%positive !! "G4VProcess")
  ∧ mod_dict (registered st_two 2%positive) 1%positive
    = mod_dict st_two 1%positive.
Proof.
  assert (H1 : is_module st_two 2%positive) by (exists ∅; reflexivity).
  assert (H2 : init_G4VProcess 2%positive st_two
               = (Ok (), registered st_two 2%positive))
    by (vm_compute; reflexivity).
  destruct (init_G4VProcess_registers_into_its_argument _ _ _ H1 H2)
    as (_ & Hin & Hother).
  split; [exact H1|]. split; [exact H2|]. split; [exact Hin|].
  apply Hother; [discriminate|exists ∅; reflexivity].
Defined.

(** C10, as stated, fails: the outcome is not a function of the module
    alone.  Module 1 is the same empty module in both states below; the
    second state is the first after the unit ran on module 2, so the
    class is already known to the binding layer.  On the first state the
    run on module 1 succeeds, on the second it faults, and the resulting
    modules differ. *)
Lemma init_G4VProcess_outcome_depends_on_registry :
  is_module st_two 1%positive
  ∧ is_module (registered st_two 2%positive) 1%positive
  ∧ objs st_two !! 1%positive = objs (registered st_two 2%positive) !! 1%positive
  ∧ init_G4VProcess 2%positive st_two = (Ok (), registered st_two 2%positive)
  ∧ fst (init_G4VProcess 1%positive st_two) = Ok ()
  ∧ fst (init_G4VProcess 1%positive (registered st_two 2%positive))
    = Throw (type_already_registered "G4VProcess")
  ∧ mod_dict (snd (init_G4VProcess 1%positive st_two)) 1%positive
    ≠ mod_dict (snd (init_G4VProcess 1%positive (registered st_two 2%positive)))
        1%positive.
Proof.
  split; [exists ∅; reflexivity|].
  split; [exists ∅; vm_compute; reflexivity|].
  do 4 (split; [vm_compute; reflexivity|]).
  intros H. apply (f_equal (λ d : gmap string loc, d !! "G4VProcess")) in H.
  vm_compute in H. discriminate.
Qed.

(** C10, amended.  The outcome is a function of the module passed in
    and of whether the binding layer already knows the class: two runs
    that agree on both end alike (both succeed, or both fault with the
    same exception), leave the same names in the module, and leave the
    same module when the heaps also allocate alike. *)
Theorem init_G4VProcess_deterministic (σ1 σ2 : state) (m : loc) :
  mod_dict σ1 m = mod_dict σ2 m →
  (is_Some (registered_types_cpp σ1 !! G4VProcess)
   ↔ is_Some (registered_types_cpp σ2 !! G4VProcess)) →
  fst (init_G4VProcess m σ1) = fst (init_G4VProcess m σ2)
  ∧ dom (mod_dict (snd (init_G4VProcess m σ1)) m)
    = dom (mod_dict (snd (init_G4VProcess m σ2)) m)
  ∧ (dom (objs σ1) = dom (objs σ2) →
     mod_dict (snd (init_G4VProcess m σ1)) m
     = mod_dict (snd (init_G4VProcess m σ2)) m).
Proof.
  intros Hd Hreg.
  destruct (init_G4VProcess m σ1) as [[[]|e1] s1] eqn:H1;
    destruct (init_G4VProcess m σ2) as [[[]|e2] s2] eqn:H2; simpl.
  - apply init_G4VProcess_ok_inv in H1 as (_ & _ & ->).
    apply init_G4VProcess_ok_inv in H2 as (_ & _ & ->).
    rewrite !registered_mod_dict, !dom_insert_L, Hd.
    split; [done|]. split; [done|]. by intros ->.
  - exfalso.
    apply init_G4VProcess_ok_inv in H1 as (Hn1 & Hr1 & _).
    apply init_G4VProcess_throw_inv in H2 as (_ & [[_ Hs]|(_ & _ & Hs)]).
    + rewrite <-Hd, Hn1 in Hs. by destruct Hs.
    + apply Hreg in Hs. rewrite Hr1 in Hs. by destruct Hs.
  - exfalso.
    apply init_G4VProcess_ok_inv in H2 as (Hn2 & Hr2 & _).
    apply init_G4VProcess_throw_inv in H1 as (_ & [[_ Hs]|(_ & _ & Hs)]).
    + rewrite Hd, Hn2 in Hs. by destruct Hs.
    + apply Hreg in Hs. rewrite Hr2 in Hs. by destruct Hs.
  - apply init_G4VProcess_throw_inv in H1 as (-> & C1).
    apply init_G4VProcess_throw_inv in H2 as (-> & C2).
    rewrite Hd. split; [|done].
    destruct C1 as [[-> S1]|(-> & N1 & S1)], C2 as [[-> S2]|(-> & N2 & S2)];
      try done.
    + rewrite Hd, N2 in S1. by destruct S1.
    + rewrite <-Hd, N1 in S2. by destruct S2.
Qed.

Lemma init_G4VProcess_deterministic_witness :
  mod_dict st_two 1%positive = mod_dict st_three 1%positive
  ∧ fst (init_G4VProcess 1%positive st_two)
    = fst (init_G4VProcess 1%positive st_three)
  ∧ dom (mod_dict (snd (init_G4VProcess 1%positive st_two)) 1%positive)
    = dom (mod_dict (snd (init_G4VProcess 1%positive st_three)) 1%positive).
Proof.
  assert (H1 : mod_dict st_two 1%positive = mod_dict st_three 1%positive)
    by reflexivity.
  assert (H2 : is_Some (registered_types_cpp st_two !! G4VProcess)
               ↔ is_Some (registered_types_cpp st_three !! G4VProcess))
    by reflexivity.
  destruct (init_G4VProcess_deterministic st_two st_three 1%positive H1 H2)
    as (Hr & Hdom & _).
  split; [exact H1|]. split; [exact Hr|exact Hdom].
Defined.

(* ===================================================================== *)
(** * The registered type *)
(* ===================================================================== *)

Section registered_type.
Implicit Types (σ : state) (m t l : loc) (i : instance).

Lemma dealloc_of_wrap (tinfo : type_info) (p : addr) (own : bool) :
  dealloc_of (wrap tinfo p own)
  = if own then destroy_holder (ti_holder tinfo) else untouched.
Proof. by destruct own. Qed.

Lemma cast_ok_inv (src : addr) (policy : return_value_policy)
    (tinfo : type_info) (copy_ctor : bool) σ l σ' :
  cast src policy tinfo copy_ctor σ = (Ok l, σ') →
  ∃ p own,
    l = fresh (dom (objs σ))
    ∧ objs σ' = <[l := PyInstance (wrap tinfo p own)]> (objs σ)
    ∧ registered_types_cpp σ' = registered_types_cpp σ.
Proof.
  unfold cast, alloc_instance.
  destruct policy, copy_ctor; intros H; inversion H; subst; simpl; eauto.
Qed.

Lemma clear_instance_nodelete i (nat : gset addr) :
  ti_holder (inst_tinfo i) = unique_ptr nodelete →
  (owned i = true → holder_constructed i = true) →
  clear_instance i nat = nat.
Proof.
  intros Hh Hinv. unfold clear_instance, dealloc_of.
  destruct (value_ptr i); [|done].
  destruct (owned i), (holder_constructed i); simpl; rewrite ?Hh; try done.
  by specialize (Hinv eq_refl).
Qed.

End registered_type.

(** C9.  The type registered by the unit has an empty dictionary and no
    bases, so no attribute at all is found on it, a constructor
    included; calling it from Python raises "no constructor defined" and
    leaves the state as it is. *)
Theorem G4VProcess_has_no_constructor (σ : state) (m : loc) (σ' : state) :
  is_module σ m →
  init_G4VProcess m σ = (Ok (), σ') →
  ∃ t ty,
    mod_dict σ' m !! "G4VProcess" = Some t
    ∧ objs σ' !! t = Some (PyType ty)
    ∧ tp_dict ty = ∅
    ∧ tp_bases ty = []
    ∧ (∀ attr, lookup_mro (objs σ') (tp_mro ty) attr = None)
    ∧ call_type t σ' = (Throw (no_constructor_defined "G4VProcess"), σ').
Proof.
  intros Hm (Hn & Hr & ->)%init_G4VProcess_ok_inv.
  exists (fresh (dom (objs σ))), (G4VProcess_type (fresh (dom (objs σ)))).
  pose proof (registered_type_object σ m Hm) as Ht.
  assert (Hattr : ∀ attr,
    lookup_mro (objs (registered σ m))
      (tp_mro (G4VProcess_type (fresh (dom (objs σ))))) attr = None).
  { intros attr. unfold lookup_mro.
    change (tp_mro (G4VProcess_type (fresh (dom (objs σ)))))
      with [fresh (dom (objs σ))].
    cbn [omap list_omap]. rewrite Ht.
    change (tp_dict (G4VProcess_type (fresh (dom (objs σ))))) with
      (∅ : gmap string member).
    by rewrite lookup_empty. }
  split; [by rewrite registered_mod_dict, lookup_insert_eq|].
  do 3 (split; [done|]). split; [done|].
  unfold call_type. by rewrite Ht, Hattr.
Qed.

Lemma G4VProcess_has_no_constructor_witness :
  is_module st_one 1%positive
  ∧ init_G4VProcess 1%positive st_one = (Ok (), registered st_one 1%positive)
  ∧ ∃ t ty,
      mod_dict (registered st_one 1%positive) 1%positive !! "G4VProcess" = Some t
      ∧ objs (registered st_one 1%positive) !! t = Some (PyType ty)
      ∧ tp_dict ty = ∅
      ∧ tp_bases ty = []
      ∧ (∀ attr, lookup_mro (objs (registered st_one 1%positive))
                   (tp_mro ty) attr = None)
      ∧ call_type t (registered st_one 1%positive)
        = (Throw (no_constructor_defined "G4VProcess"),
           registered st_one 1%positive).
Proof.
  assert (H1 : is_module st_one 1%positive) by (exists ∅; reflexivity).
  assert (H2 : init_G4VProcess 1%positive st_one
               = (Ok (), registered st_one 1%positive))
    by (vm_compute; reflexivity).
  split; [exact H1|]. split; [exact H2|].
  exact (G4VProcess_has_no_constructor st_one 1%positive _ H1 H2).
Defined.

(** For contrast: the same declaration followed by a bound constructor
    yields a type that Python can instantiate. *)
Example class_with_constructor_is_instantiable :
  fst ((t ← class_ G4VProcess [Holder (unique_ptr nodelete)] 1%positive
             "G4VProcess";
        def t "__init__" Constructor ;;
        call_type t) st_one) = Ok 3%positive.
Proof. vm_compute. reflexivity. Qed.

(** C1.  The record the unit enters for the class carries the no-delete
    holder.  Whichever return value policy exposes a native object
    through it, the death of the wrapper, at any later time, never takes
    the operator-delete branch and leaves the set of live native objects
    as it was; the same holds for every instance of the class whose
    holder has been constructed if it is owned. *)
Theorem G4VProcess_never_deleted (σ : state) (m : loc) (σ' : state) :
  init_G4VProcess m σ = (Ok (), σ') →
  ∃ tinfo,
    registered_types_cpp σ' !! G4VProcess = Some tinfo
    ∧ ti_holder tinfo = unique_ptr nodelete
    ∧ (∀ σ1 src policy copy_ctor l σ2,
         cast src policy tinfo copy_ctor σ1 = (Ok l, σ2) →
         ∃ i, objs σ2 !! l = Some (PyInstance i)
              ∧ inst_tinfo i = tinfo
              ∧ dealloc_of i ≠ operator_delete
              ∧ (dealloc_of i = untouched
                 ∨ dealloc_of i = destroy_holder (unique_ptr nodelete))
              ∧ ∀ σ3, objs σ3 !! l = Some (PyInstance i) →
                      native (snd (pybind11_object_dealloc l σ3)) = native σ3
                      ∧ objs (snd (pybind11_object_dealloc l σ3)) !! l = None)
    ∧ (∀ i nat, inst_tinfo i = tinfo →
                (owned i = true → holder_constructed i = true) →
                clear_instance i nat = nat).
Proof.
  intros (Hn & Hr & ->)%init_G4VProcess_ok_inv.
  exists (G4VProcess_tinfo (fresh (dom (objs σ)))).
  split; [unfold registered; simpl; apply lookup_insert_eq|].
  split; [done|]. split.
  - intros σ1 src policy copy_ctor l σ2 Hcast.
    apply cast_ok_inv in Hcast as (p & own & -> & Hobjs & _).
    eexists. split; [rewrite Hobjs; apply lookup_insert_eq|].
    split; [done|]. rewrite dealloc_of_wrap. simpl.
    split; [by destruct own|]. split; [destruct own; auto|].
    intros σ3 Hl. unfold pybind11_object_dealloc. rewrite Hl. simpl.
    split; [|apply lookup_delete_eq].
    apply clear_instance_nodelete; [done|]. by destruct own.
  - intros i nat Hi Hinv. apply clear_instance_nodelete; [|done].
    by rewrite Hi.
Qed.

Lemma G4VProcess_never_deleted_witness :
  init_G4VProcess 1%positive st_two = (Ok (), registered st_two 1%positive)
  ∧ ∃ tinfo,
      registered_types_cpp (registered st_two 1%positive) !! G4VProcess
      = Some tinfo
      ∧ ti_holder tinfo = unique_ptr nodelete
      ∧ ∀ i nat, inst_tinfo i = tinfo →
                 (owned i = true → holder_constructed i = true) →
                 clear_instance i nat = nat.
Proof.
  assert (H1 : init_G4VProcess 1%positive st_two
               = (Ok (), registered st_two 1%positive))
    by (vm_compute; reflexivity).
  split; [exact H1|].
  destruct (G4VProcess_never_deleted st_two 1%positive _ H1)
    as (tinfo & Hreg & Hh & _ & Hall).
  exists tinfo. split; [exact Hreg|]. split; [exact Hh|exact Hall].
Defined.

(** For contrast: under the default deleter the death of an owning
    wrapper deletes the native object; under [nodelete] it stays. *)
Example default_delete_deletes_nodelete_keeps :
  native (snd ((l ← cast 7%positive take_ownership
                      (mk_type_info 3%positive G4VProcess
                         (unique_ptr default_delete) true) false;
                pybind11_object_dealloc l) st_two)) = ∅
  ∧ native (snd ((l ← cast 7%positive take_ownership
                        (G4VProcess_tinfo 3%positive) false;
                  pybind11_object_dealloc l) st_two)) = {[ 7%positive ]}.
Proof. split; vm_compute; reflexivity. Qed.

(* ===================================================================== *)
(** * Subclasses *)
(* ===================================================================== *)

Section subclasses.
Implicit Types (σ : state) (m t s l : loc).

Lemma registered_establishes σ m :
  is_module σ m →
  G4VProcess_registered_at (registered σ m) (fresh (dom (objs σ))).
Proof.
  intros Hm. split; [|by apply registered_type_object].
  unfold registered. simpl. apply lookup_insert_eq.
Qed.

(** The reason the unit exists (source, lines 13 and 14): without it a
    subclass cannot be registered at all. *)
Lemma subclass_needs_registration σ type_ holder name m :
  registered_types_cpp σ !! G4VProcess = None →
  init_subclass type_ holder name m σ
  = (Throw (unknown_base name G4VProcess), σ).
Proof.
  intros Hr. unfold init_subclass, class_. simpl. by rewrite Hr.
Qed.

Lemma init_subclass_ok_inv σ1 t type_ holder name m s σ2 :
  G4VProcess_registered_at σ1 t →
  is_module σ1 m →
  init_subclass type_ holder name m σ1 = (Ok s, σ2) →
  type_ ≠ G4VProcess ∧ s ≠ t ∧ s ≠ m ∧ m ≠ t
  ∧ objs σ1 !! s = None
  ∧ objs σ2
    = <[m := PyModule (<[name := s]> (mod_dict σ1 m))]>
        (<[s := PyType {| tp_name := name;
                          tp_cpptype := type_;
                          tp_bases := [t];
                          tp_mro := [s; t];
                          tp_dict := ∅ |}]> (objs σ1))
  ∧ registered_types_cpp σ2
    = <[type_ := {| ti_type := s;
                    ti_cpptype := type_;
                    ti_holder := holder;
                    ti_default_holder := is_default_holder holder |}]>
        (registered_types_cpp σ1).
Proof.
  intros [Hreg Ht] [d Hm] Hrun. unfold init_subclass in Hrun.
  apply class_ok_inv in Hrun as (bases & Hb & Hn & Hr & -> & ->).
  simpl in Hb. rewrite Hreg in Hb. simpl in Hb.
  destruct (bool_decide _); [|discriminate]. inversion Hb; subst bases.
  pose proof (fresh_loc_None σ1) as Hf.
  assert (type_ ≠ G4VProcess) by (intros ->; congruence).
  assert (fresh (dom (objs σ1)) ≠ t) by (intros Heq; congruence).
  assert (fresh (dom (objs σ1)) ≠ m) by (intros Heq; congruence).
  assert (m ≠ t) by (intros ->; congruence).
  do 5 (split; [done|]). split; [|done].
  unfold setattr, new_mro, mro_of. simpl. rewrite Ht. done.
Qed.

End subclasses.

(** C5.  After the unit has run, the class is known to the binding layer
    with its type object [t] bound to "G4VProcess".  In any later state
    in which that still holds, every binding unit that declares a class
    with base [G4VProcess] and completes gets a type with [t] as its
    base, this type is a subtype of [t], and every wrapper made for a
    native object of the subclass passes the instance check against
    [t]. *)
Theorem subclass_is_recognized (σ : state) (m : loc) (σ' : state) :
  is_module σ m →
  init_G4VProcess m σ = (Ok (), σ') →
  ∃ t,
    mod_dict σ' m !! "G4VProcess" = Some t
    ∧ G4VProcess_registered_at σ' t
    ∧ ∀ σ1 type_ holder name m' s σ2,
        G4VProcess_registered_at σ1 t →
        is_module σ1 m' →
        init_subclass type_ holder name m' σ1 = (Ok s, σ2) →
        G4VProcess_registered_at σ2 t
        ∧ (∃ ty, objs σ2 !! s = Some (PyType ty) ∧ tp_bases ty = [t])
        ∧ PyType_IsSubtype σ2 s t = true
        ∧ ∀ tinfo src policy copy_ctor o σ3,
            registered_types_cpp σ2 !! type_ = Some tinfo →
            cast src policy tinfo copy_ctor σ2 = (Ok o, σ3) →
            isinstance σ3 o t = true.
Proof.
  intros Hm (Hn & Hr & ->)%init_G4VProcess_ok_inv.
  exists (fresh (dom (objs σ))).
  split; [by rewrite registered_mod_dict, lookup_insert_eq|].
  split; [by apply registered_establishes|].
  generalize (fresh (dom (objs σ))). clear.
  intros t σ1 type_ holder name m' s σ2 Hat Hm' Hrun.
  pose proof Hat as [Hreg Ht].
  destruct (init_subclass_ok_inv _ _ _ _ _ _ _ _ Hat Hm' Hrun)
    as (Hty & Hst & Hsm & Hmt & Hs & Hobjs & Hregs).
  assert (Hs2 : objs σ2 !! s
                = Some (PyType {| tp_name := name; tp_cpptype := type_;
                                  tp_bases := [t]; tp_mro := [s; t];
                                  tp_dict := ∅ |})).
  { rewrite Hobjs, lookup_insert_ne, lookup_insert_eq; done. }
  split.
  { split.
    - rewrite Hregs, lookup_insert_ne; done.
    - rewrite Hobjs, !lookup_insert_ne; done. }
  split; [by eexists|]. split.
  { unfold PyType_IsSubtype, mro_of. rewrite Hs2. simpl.
    apply bool_decide_eq_true. set_solver. }
  intros tinfo src policy copy_ctor o σ3 Hti Hcast.
  rewrite Hregs, lookup_insert_eq in Hti. inversion Hti; subst tinfo.
  apply cast_ok_inv in Hcast as (p & own & -> & Hobjs3 & _).
  assert (Hne : fresh (dom (objs σ2)) ≠ s).
  { intros Heq. pose proof (fresh_loc_None σ2) as Hf. congruence. }
  unfold isinstance. rewrite Hobjs3, lookup_insert_eq. simpl.
  unfold PyType_IsSubtype, mro_of.
  rewrite Hobjs3, lookup_insert_ne, Hs2 by done. simpl.
  apply bool_decide_eq_true. set_solver.
Qed.

Lemma subclass_is_recognized_witness :
  is_module st_one 1%positive
  ∧ init_G4VProcess 1%positive st_one = (Ok (), registered st_one 1%positive)
  ∧ ∃ t,
      mod_dict (registered st_one 1%positive) 1%positive !! "G4VProcess" = Some t
      ∧ G4VProcess_registered_at (registered st_one 1%positive) t
      ∧ ∀ σ1 type_ holder name m' s σ2,
          G4VProcess_registered_at σ1 t →
          is_module σ1 m' →
          init_subclass type_ holder name m' σ1 = (Ok s, σ2) →
          G4VProcess_registered_at σ2 t
          ∧ (∃ ty, objs σ2 !! s = Some (PyType ty) ∧ tp_bases ty = [t])
          ∧ PyType_IsSubtype σ2 s t = true
          ∧ ∀ tinfo src policy copy_ctor o σ3,
              registered_types_cpp σ2 !! type_ = Some tinfo →
              cast src policy tinfo copy_ctor σ2 = (Ok o, σ3) →
              isinstance σ3 o t = true.
Proof.
  assert (H1 : is_module st_one 1%positive) by (exists ∅; reflexivity).
  assert (H2 : init_G4VProcess 1%positive st_one
               = (Ok (), registered st_one 1%positive))
    by (vm_compute; reflexivity).
  split; [exact H1|]. split; [exact H2|].
  exact (subclass_is_recognized st_one 1%positive _ H1 H2).
Defined.

(** The subclass the source names, registered after the unit, and a
    native object of it exposed by reference: the wrapper is an instance
    of the subclass type (at 4) and of the [G4VProcess] type (at 3). *)
Example G4StepLimiter_is_a_G4VProcess :
  fst ((init_G4VProcess 1%positive ;;
        init_subclass "G4StepLimiter" (unique_ptr nodelete) "G4StepLimiter"
          1%positive ;;
        o ← cast 7%positive reference
              (mk_type_info 4%positive "G4StepLimiter"
                 (unique_ptr nodelete) true) false;
        ((λ σ, (Ok (isinstance σ o 4%positive, isinstance σ o 3%positive), σ))
           : M (bool * bool))) st_two)
  = Ok (true, true).
Proof. vm_compute. reflexivity. Qed.

(* ===================================================================== *)
(** * Further properties of the unit *)
(* ===================================================================== *)

(** X1.  The unit is one-shot.  After a successful run on [m], every
    further run, on [m] or on any other module, faults and changes
    nothing: on [m] because the name is taken, on a module without the
    name because the class is already known to the binding layer. *)
Theorem init_G4VProcess_not_repeatable (σ : state) (m : loc) (σ' : state) :
  init_G4VProcess m σ = (Ok (), σ') →
  init_G4VProcess m σ' = (Throw (name_already_defined "G4VProcess"), σ')
  ∧ ∀ m', (mod_dict σ' m' !! "G4VProcess" = None →
           init_G4VProcess m' σ'
           = (Throw (type_already_registered "G4VProcess"), σ'))
          ∧ ∃ e, init_G4VProcess m' σ' = (Throw e, σ').
Proof.
  intros (_ & _ & ->)%init_G4VProcess_ok_inv.
  assert (Hall : ∀ m',
    (mod_dict (registered σ m) m' !! "G4VProcess" = None →
     init_G4VProcess m' (registered σ m)
     = (Throw (type_already_registered "G4VProcess"), registered σ m))
    ∧ ∃ e, init_G4VProcess m' (registered σ m) = (Throw e, registered σ m)).
  { intros m'. rewrite init_G4VProcess_outcome.
    rewrite registered_keeps_registry_entry.
    destruct (mod_dict (registered σ m) m' !! "G4VProcess");
      split; eauto; discriminate. }
  split; [|exact Hall].
  rewrite init_G4VProcess_outcome, registered_mod_dict, lookup_insert_eq.
  done.
Qed.

Lemma init_G4VProcess_not_repeatable_witness :
  init_G4VProcess 1%positive st_two = (Ok (), registered st_two 1%positive)
  ∧ init_G4VProcess 1%positive (registered st_two 1%positive)
    = (Throw (name_already_defined "G4VProcess"), registered st_two 1%positive)
  ∧ init_G4VProcess 2%positive (registered st_two 1%positive)
    = (Throw (type_already_registered "G4VProcess"),
       registered st_two 1%positive).
Proof.
  assert (H1 : init_G4VProcess 1%positive st_two
               = (Ok (), registered st_two 1%positive))
    by (vm_compute; reflexivity).
  destruct (init_G4VProcess_not_repeatable st_two 1%positive _ H1)
    as [Hsame Hother].
  split; [exact H1|]. split; [exact Hsame|].
  apply (Hother 2%positive). vm_compute; reflexivity.
Defined.

Lemma init_subclass_ok (σ1 : state) (t : loc) (type_ name : string) (m' : loc) :
  registered_types_cpp σ1 !! G4VProcess = Some (G4VProcess_tinfo t) →
  registered_types_cpp σ1 !! type_ = None →
  mod_dict σ1 m' !! name = None →
  ∃ s σ2,
    init_subclass type_ (unique_ptr nodelete) name m' σ1 = (Ok s, σ2)
    ∧ mod_dict σ2 m' !! name = Some s.
Proof.
  intros Hg Hty Hname. unfold init_subclass, class_. simpl.
  rewrite Hg. simpl. apply hasattr_false in Hname. rewrite Hname, Hty.
  do 2 eexists. split; [done|].
  unfold mod_dict, setattr. simpl. by rewrite !lookup_insert_eq.
Qed.

(** X3.  Why the unit is there (source, lines 13 and 14).  Before it has
    run, no binding unit of a subclass can be registered: whatever its
    class, holder, name and module, it faults on the unknown base and
    changes nothing.  After it has run, a subclass unit with the
    no-delete holder, a class the binding layer does not know yet and a
    name its module does not hold yet is registered, and the name is
    bound to the new type. *)
Theorem subclass_registration_needs_the_unit (σ : state) (m : loc) (σ' : state) :
  init_G4VProcess m σ = (Ok (), σ') →
  (∀ type_ holder name m',
     init_subclass type_ holder name m' σ
     = (Throw (unknown_base name G4VProcess), σ))
  ∧ (∀ type_ name m',
       registered_types_cpp σ' !! type_ = None →
       mod_dict σ' m' !! name = None →
       ∃ s σ2,
         init_subclass type_ (unique_ptr nodelete) name m' σ' = (Ok s, σ2)
         ∧ mod_dict σ2 m' !! name = Some s).
Proof.
  intros (Hn & Hr & ->)%init_G4VProcess_ok_inv. split.
  - intros type_ holder name m'. by apply subclass_needs_registration.
  - intros type_ name m' Hty Hname.
    eapply init_subclass_ok; [apply registered_keeps_registry_entry|done..].
Qed.

Lemma subclass_registration_needs_the_unit_witness :
  init_G4VProcess 1%positive st_one = (Ok (), registered st_one 1%positive)
  ∧ init_subclass "G4StepLimiter" (unique_ptr nodelete) "G4StepLimiter"
      1%positive st_one
    = (Throw (unknown_base "G4StepLimiter" G4VProcess), st_one)
  ∧ ∃ s σ2,
      init_subclass "G4StepLimiter" (unique_ptr nodelete) "G4StepLimiter"
        1%positive (registered st_one 1%positive) = (Ok s, σ2)
      ∧ mod_dict σ2 1%positive !! "G4StepLimiter" = Some s.
Proof.
  assert (H1 : init_G4VProcess 1%positive st_one
               = (Ok (), registered st_one 1%positive))
    by (vm_compute; reflexivity).
  destruct (subclass_registration_needs_the_unit st_one 1%positive _ H1)
    as [Hbefore Hafter].
  split; [exact H1|]. split; [apply Hbefore|].
  apply Hafter; vm_compute; reflexivity.
Defined.

(** X5.  The registration is permanent.  Once the class is known to the
    binding layer with its type object [t] bound to "G4VProcess" in [m],
    no later [py::class_] in a module, whatever it declares and whether
    it succeeds or faults, removes the record, changes the type object
    or rebinds the name. *)
Theorem registration_is_permanent (σ1 : state) (m t : loc)
    (type_ : string) (options : list option_arg) (scope : loc)
    (name : string) (r : result loc) (σ2 : state) :
  G4VProcess_registered_at σ1 t →
  mod_dict σ1 m !! "G4VProcess" = Some t →
  is_module σ1 scope →
  class_ type_ options scope name σ1 = (r, σ2) →
  G4VProcess_registered_at σ2 t
  ∧ mod_dict σ2 m !! "G4VProcess" = Some t.
Proof.
  intros [Hreg Ht] Hm [d Hscope] Hrun. destruct r as [s|e].
  - apply class_ok_inv in Hrun as (bases & _ & Hn & Hr & -> & ->).
    pose proof (fresh_loc_None σ1) as Hf.
    assert (type_ ≠ G4VProcess) by (intros ->; congruence).
    assert (fresh (dom (objs σ1)) ≠ t) by (intros Heq; congruence).
    assert (scope ≠ t) by (intros ->; congruence).
    split.
    + split; simpl.
      * by rewrite lookup_insert_ne.
      * unfold setattr. by rewrite !lookup_insert_ne.
    + destruct (decide (m = scope)) as [->|Hms].
      * unfold mod_dict at 1, setattr. simpl. rewrite lookup_insert_eq.
        rewrite lookup_insert_ne; [done|]. intros ->. congruence.
      * assert (m ≠ fresh (dom (objs σ1))).
        { intros ->. unfold mod_dict in Hm. by rewrite Hf in Hm. }
        unfold mod_dict at 1, setattr. simpl.
        rewrite !lookup_insert_ne by done. exact Hm.
  - apply class_throw_inv in Hrun as ->. by split.
Qed.

Lemma registration_is_permanent_witness :
  G4VProcess_registered_at (registered st_one 1%positive) 2%positive
  ∧ mod_dict (registered st_one 1%positive) 1%positive !! "G4VProcess"
    = Some 2%positive
  ∧ is_module (registered st_one 1%positive) 1%positive
  ∧ G4VProcess_registered_at
      (snd (class_ "G4StepLimiter" [Base G4VProcess; Holder (unique_ptr nodelete)]
              1%positive "G4StepLimiter" (registered st_one 1%positive)))
      2%positive
  ∧ mod_dict
      (snd (class_ "G4StepLimiter" [Base G4VProcess; Holder (unique_ptr nodelete)]
              1%positive "G4StepLimiter" (registered st_one 1%positive)))
      1%positive !! "G4VProcess" = Some 2%positive.
Proof.
  assert (H1 : G4VProcess_registered_at (registered st_one 1%positive)
                 2%positive)
    by (split; vm_compute; reflexivity).
  assert (H2 : mod_dict (registered st_one 1%positive) 1%positive
                 !! "G4VProcess" = Some 2%positive)
    by (vm_compute; reflexivity).
  assert (H3 : is_module (registered st_one 1%positive) 1%positive)
    by (eexists; vm_compute; reflexivity).
  split; [exact H1|]. split; [exact H2|]. split; [exact H3|].
  exact (registration_is_permanent _ 1%positive 2%positive "G4StepLimiter"
           [Base G4VProcess; Holder (unique_ptr nodelete)] 1%positive
           "G4StepLimiter" _ _ H1 H2 H3
           (surjective_pairing _)).
Defined.
